(** * ProDy [atomic/residue.py]: the [Residue] view over a shared atom store

    A shallow embedding of class [Residue] and of the collaborators it
    talks to ([AtomGroup], [AtomSubset], [HierView], [Chain], [Atom]),
    followed by the properties of the residue layer.

    Conventions of the embedding:
    - a Python call that may raise is a computation in [result];
      Python's [None] result is [None] of an [option] under [Ok];
    - the two shared references held by every residue, [self._ag] and
      [self._hv], are passed explicitly: every view over one store sees the
      same [AtomGroup] value, and a setter returns the store it leaves
      behind;
    - numpy columns are lists addressed by atom index. *)

From Stdlib Require Import ZArith String Ascii DecimalString Lia.
From stdpp Require Import base list strings.

(** ** Python results and values *)

Inductive exn : Type :=
| IndexError
| ValueError
| TypeError
| AttributeError.

Inductive result (A : Type) : Type :=
| Ok (a : A)
| Raise (e : exn).

Arguments Ok {A} a.
Arguments Raise {A} e.

Definition bind {A B : Type} (m : result A) (k : A -> result B) : result B :=
  match m with
  | Ok a => k a
  | Raise e => Raise e
  end.

Notation "x <- m ;; k" := (bind m (fun x => k))
  (at level 100, m at next level, right associativity,
   format "'[v' x  <-  m  ;;  '/' k ']'").

(** The values a caller may pass where the code tests [isinstance(_, str)]. *)
Inductive pyval : Type :=
| PyNone
| PyBool (b : bool)
| PyInt (z : Z)
| PyStr (s : string).

Definition isinstance_str (v : pyval) : bool :=
  match v with
  | PyStr _ => true
  | _ => false
  end.

(** [seq[i]] on a list or an array, for a non-negative [i]. *)
Definition item {A : Type} (data : list A) (i : nat) : result A :=
  match data !! i with
  | Some x => Ok x
  | None => Raise IndexError
  end.

(** ** [str] and [str.format] *)

Definition str_Z (z : Z) : string := NilZero.string_of_int (Z.to_int z).
Definition str_nat (n : nat) : string := NilZero.string_of_uint (Nat.to_uint n).

(** [str(x)] of a value that is a string or [None]. *)
Definition str_opt (o : option string) : string :=
  match o with
  | Some s => s
  | None => "None"
  end.

(** [x or ''] of a value that is a string or [None]. *)
Definition or_empty (o : option string) : string :=
  match o with
  | Some s => s
  | None => ""
  end.

(** Truth value of a string or [None]: false for [None] and for ['']. *)
Definition truthy (o : option string) : bool :=
  match o with
  | Some (String _ _) => true
  | _ => false
  end.

Definition digit_of_ascii (c : ascii) : option nat :=
  let n := nat_of_ascii c in
  if (48 <=? n)%nat && (n <=? 57)%nat then Some (n - 48)%nat else None.

(** [tmpl.format( *args )] for the templates of this module: literal text and
    replacement fields [{k}] with a one-digit positional index, the arguments
    already converted by [str]. *)
Fixpoint format (tmpl : string) (args : list string) : result string :=
  match tmpl with
  | EmptyString => Ok EmptyString
  | String c rest =>
      if Ascii.eqb c "{" then
        match rest with
        | String d (String c' rest') =>
            if Ascii.eqb c' "}" then
              match digit_of_ascii d with
              | Some k =>
                  a <- item args k ;;
                  r <- format rest' args ;;
                  Ok (a +:+ r)
              | None => Raise ValueError
              end
            else Raise ValueError
        | _ => Raise ValueError
        end
      else
        r <- format rest args ;;
        Ok (String c r)
  end.

(** ** The shared atom store *)

(** Modelled from the spec: class [AtomGroup] is not part of this module.  It
    has one row per atom; the residue code reads the columns through
    [_getResnums()], [_getResnames()], ...: a column the code tests against
    [None] before indexing may be absent, the others are indexed directly. *)
Record AtomGroup : Type := {
  _title : string;
  _n_atoms : nat;
  _n_csets : nat;
  _ag_acsi : nat;
  _names : list string;
  _resnums : list Z;
  _resnames : option (list string);
  _icodes : option (list string);
  _chids : option (list string);
  _segnames : option (list string);
  _resindices : list nat
}.

Definition _setResnums (ag : AtomGroup) (col : list Z) : AtomGroup :=
  {| _title := _title ag; _n_atoms := _n_atoms ag; _n_csets := _n_csets ag;
     _ag_acsi := _ag_acsi ag; _names := _names ag; _resnums := col;
     _resnames := _resnames ag; _icodes := _icodes ag; _chids := _chids ag;
     _segnames := _segnames ag; _resindices := _resindices ag |}.

(** Modelled from the spec: [numCoordsets()] is the number of coordinate
    snapshots the store holds. *)
Definition numCoordsets (ag : AtomGroup) : nat := _n_csets ag.

(** Modelled from the spec: [getTitle()] is the title of the store. *)
Definition getTitle (ag : AtomGroup) : string := _title ag.

Definition opt_length_ok {A : Type} (n : nat) (col : option (list A)) : bool :=
  match col with
  | Some l => (length l =? n)%nat
  | None => true
  end.

(** Every column present has one entry per atom. *)
Definition store_ok (ag : AtomGroup) : bool :=
  (length (_names ag) =? _n_atoms ag)%nat
  && (length (_resnums ag) =? _n_atoms ag)%nat
  && (length (_resindices ag) =? _n_atoms ag)%nat
  && opt_length_ok (_n_atoms ag) (_resnames ag)
  && opt_length_ok (_n_atoms ag) (_icodes ag)
  && opt_length_ok (_n_atoms ag) (_chids ag)
  && opt_length_ok (_n_atoms ag) (_segnames ag).

(** ** Views *)

(** Slots [_indices], [_acsi] and [_selstr] of a [Residue]; [_ag] and [_hv]
    are the explicit arguments of the methods. *)
Record Residue : Type := {
  _indices : list nat;
  _acsi : option nat;
  _selstr : option string
}.

(** Modelled from the spec: class [Atom] is not part of this module; it is
    built as [Atom(ag, index, acsi)] from the store, an atom index and a
    coordinate set index. *)
Record Atom : Type := {
  atom_index : nat;
  atom_acsi : nat
}.

(** Modelled from the spec: class [Chain] is not part of this module; a
    residue only asks a chain for its selection string. *)
Record Chain : Type := { chain_getSelstr : string }.

(** Modelled from the spec: class [Segment] is not part of this module. *)
Record Segment : Type := { segment_getSelstr : string }.

(** The operations of [HierView] a residue calls on [self._hv].  The residue
    code is written against this interface; any of the lookups may answer
    [None] or raise. *)
Record HierView : Type := {
  hv_getResidue : Z -> result (option Residue);
  hv_getChain : string -> result (option Chain);
  hv_getSegment : string -> result (option Segment)
}.

(** Strictly increasing atom indices: store order, no atom twice. *)
Fixpoint ascending (l : list nat) : bool :=
  match l with
  | [] => true
  | i :: l' =>
      match l' with
      | [] => true
      | j :: _ => (i <? j)%nat && ascending l'
      end
  end.

(** A residue as the hierarchy builds it over [ag]: at least one atom, the
    indices in store order and inside the store. *)
Definition residue_ok (ag : AtomGroup) (self : Residue) : bool :=
  match _indices self with
  | [] => false
  | _ :: _ =>
      ascending (_indices self)
      && forallb (fun i => (i <? _n_atoms ag)%nat) (_indices self)
  end.

(** ** Inherited from [AtomSubset] and [AtomPointer] *)

(** Modelled from the spec: [len(self)] of the base view is the number of
    atom indices it holds. *)
Definition len (self : Residue) : nat := length (_indices self).

(** Modelled from the spec: [getACSIndex()] of the base view is the view's
    active-snapshot override, and the store's active snapshot without one. *)
Definition getACSIndex (ag : AtomGroup) (self : Residue) : result nat :=
  Ok (default (_ag_acsi ag) (_acsi self)).

(** [data[indices]]: the entries of a column at a sequence of atom indices. *)
Fixpoint take_at {A : Type} (data : list A) (indices : list nat)
  : result (list A) :=
  match indices with
  | [] => Ok []
  | i :: rest =>
      x <- item data i ;;
      xs <- take_at data rest ;;
      Ok (x :: xs)
  end.

(** Modelled from the spec: [getNames()] of the base view reads the atom-name
    column at the held indices. *)
Definition getNames (ag : AtomGroup) (self : Residue) : result (list string) :=
  take_at (_names ag) (_indices self).

(** [data[indices] = value]: one value written at every index of a sequence;
    an index outside the column raises and nothing is written. *)
Definition put_at {A : Type} (data : list A) (indices : list nat) (value : A)
  : result (list A) :=
  if forallb (fun i => (i <? length data)%nat) indices
  then Ok (foldr (fun i col => <[i := value]> col) data indices)
  else Raise IndexError.

(** Modelled from the spec: [setResnums(value)] of the base view writes the
    value into the residue-number column at every held index. *)
Definition setResnums (ag : AtomGroup) (self : Residue) (value : Z)
  : result AtomGroup :=
  col <- put_at (_resnums ag) (_indices self) value ;;
  Ok (_setResnums ag col).

(** ** class [Residue] *)

Module Residue.

(** [self._indices[0]]. *)
Definition index0 (self : Residue) : result nat := item (_indices self) 0.

(** [data[self._indices[0]]] for a column that may be [None]. *)
Definition first_of {A : Type} (col : option (list A)) (self : Residue)
  : result (option A) :=
  match col with
  | Some data =>
      i <- index0 self ;;
      x <- item data i ;;
      Ok (Some x)
  | None => Ok None
  end.

Definition getResnum (ag : AtomGroup) (self : Residue) : result Z :=
  i <- index0 self ;;
  item (_resnums ag) i.

Definition setResnum (ag : AtomGroup) (self : Residue) (number : Z)
  : result AtomGroup :=
  setResnums ag self number.

Definition getResname (ag : AtomGroup) (self : Residue)
  : result (option string) :=
  first_of (_resnames ag) self.

Definition getIcode (ag : AtomGroup) (self : Residue)
  : result (option string) :=
  first_of (_icodes ag) self.

Definition getResindex (ag : AtomGroup) (self : Residue) : result nat :=
  i <- index0 self ;;
  item (_resindices ag) i.

Definition getChid (ag : AtomGroup) (self : Residue)
  : result (option string) :=
  first_of (_chids ag) self.

Definition getSegname (ag : AtomGroup) (self : Residue)
  : result (option string) :=
  first_of (_segnames ag) self.

Definition getChain (ag : AtomGroup) (hv : HierView) (self : Residue)
  : result (option Chain) :=
  chid <- getChid ag self ;;
  match chid with
  | Some c => hv_getChain hv c
  | None => Ok None
  end.

Definition getSegment (ag : AtomGroup) (hv : HierView) (self : Residue)
  : result (option Segment) :=
  segname <- getSegname ag self ;;
  match segname with
  | Some s => hv_getSegment hv s
  | None => Ok None
  end.

Definition __repr__ (ag : AtomGroup) (self : Residue) : result string :=
  let n_csets := numCoordsets ag in
  chid <- getChid ag self ;;
  chain <- match chid with
           | None => Ok ""
           | Some _ =>
               c <- getChid ag self ;;
               format " from Chain {0}" [str_opt c]
           end ;;
  if (n_csets =? 1)%nat then
    resname <- getResname ag self ;;
    resnum <- getResnum ag self ;;
    icode <- getIcode ag self ;;
    format "<Residue: {0} {1}{2}{3} from {4} ({5} atoms)>"
      [str_opt resname; str_Z resnum; or_empty icode; chain;
       getTitle ag; str_nat (len self)]
  else if (1 <? n_csets)%nat then
    resname <- getResname ag self ;;
    resnum <- getResnum ag self ;;
    icode <- getIcode ag self ;;
    acsi <- getACSIndex ag self ;;
    format ("<Residue: {0} {1}{2}{3} from {4} "
            +:+ "({5} atoms; active #{6} of {7} coordsets)>")
      [str_opt resname; str_Z resnum; or_empty icode; chain;
       getTitle ag; str_nat (len self); str_nat acsi; str_nat n_csets]
  else
    resname <- getResname ag self ;;
    resnum <- getResnum ag self ;;
    icode <- getIcode ag self ;;
    format ("<Residue: {0} {1}{2}{3} from {4} ({5} atoms; "
            +:+ "no coordinates)>")
      [str_opt resname; str_Z resnum; or_empty icode; chain;
       getTitle ag; str_nat (len self)].

Definition __str__ (ag : AtomGroup) (self : Residue) : result string :=
  resname <- getResname ag self ;;
  resnum <- getResnum ag self ;;
  icode <- getIcode ag self ;;
  format "{0} {1}{2}" [str_opt resname; str_Z resnum; or_empty icode].

(** [mask.nonzero()[0]]: the positions at which a boolean array is true,
    in increasing order. *)
Fixpoint nonzero_from (k : nat) (mask : list bool) : list nat :=
  match mask with
  | [] => []
  | b :: mask' =>
      if b then k :: nonzero_from (S k) mask' else nonzero_from (S k) mask'
  end.

Definition nonzero (mask : list bool) : list nat := nonzero_from 0 mask.

Definition getAtom (ag : AtomGroup) (self : Residue) (name : pyval)
  : result (option Atom) :=
  acsi <- getACSIndex ag self ;;
  match name with
  | PyStr s =>
      names <- getNames ag self ;;
      let nz := nonzero ((fun n => bool_decide (n = s)) <$> names) in
      match nz with
      | k :: _ =>
          i <- item (_indices self) k ;;
          Ok (Some {| atom_index := i; atom_acsi := acsi |})
      | [] => Ok None
      end
  | _ => Ok None
  end.

Definition __getitem__ := getAtom.

Definition getSelstr (ag : AtomGroup) (hv : HierView) (self : Residue)
  : result string :=
  ic <- getIcode ag self ;;
  let icode := or_empty ic in
  chain <- getChain ag hv self ;;
  match chain with
  | None =>
      if truthy (_selstr self) then
        resnum <- getResnum ag self ;;
        format "resnum {0}{1} and ({1})"
          [str_Z resnum; icode; str_opt (_selstr self)]
      else
        resnum <- getResnum ag self ;;
        format "resnum {0}{1}" [str_Z resnum; icode]
  | Some ch =>
      resnum <- getResnum ag self ;;
      format "resnum {0}{1} and ({2})"
        [str_Z resnum; icode; chain_getSelstr ch]
  end.

Definition getPrev (ag : AtomGroup) (hv : HierView) (self : Residue)
  : result (option Residue) :=
  resindex <- getResindex ag self ;;
  let nextIndex := (Z.of_nat resindex - 1)%Z in
  if (nextIndex <? 0)%Z then Ok None
  else hv_getResidue hv nextIndex.

Definition getNext (ag : AtomGroup) (hv : HierView) (self : Residue)
  : result (option Residue) :=
  resindex <- getResindex ag self ;;
  hv_getResidue hv (Z.of_nat resindex + 1)%Z.

End Residue.

(** ** The hierarchy index *)

(** Modelled from the spec: class [HierView] is not part of this module.  It
    holds the residues by ordinal and the chains and segments by identifier;
    its lookups are total, an ordinal outside the residue list and an unknown
    identifier answer [None]. *)
Record HierData : Type := {
  hd_residues : list Residue;
  hd_chains : list (string * Chain);
  hd_segments : list (string * Segment)
}.

Fixpoint assoc {V : Type} (key : string) (l : list (string * V)) : option V :=
  match l with
  | [] => None
  | (k, v) :: l' => if bool_decide (k = key) then Some v else assoc key l'
  end.

(** Modelled from the spec: the lookups of [HierView] over its tables,
    [_getResidue(index)], [getChain(chid)] and [getSegment(segname)]. *)
Definition hierview (d : HierData) : HierView :=
  {| hv_getResidue := fun i =>
       if (i <? 0)%Z then Ok None else Ok (hd_residues d !! Z.to_nat i);
     hv_getChain := fun chid => Ok (assoc chid (hd_chains d));
     hv_getSegment := fun segname => Ok (assoc segname (hd_segments d)) |}.

(** The index agrees with the store: the residue held at ordinal [k], [k+1],
    ... reads that residue index from the store. *)
Fixpoint consistent_from (ag : AtomGroup) (k : nat) (rs : list Residue)
  : bool :=
  match rs with
  | [] => true
  | r :: rs' =>
      match Residue.getResindex ag r with
      | Ok i => (i =? k)%nat
      | Raise _ => false
      end
      && consistent_from ag (S k) rs'
  end.

Definition hier_consistent (ag : AtomGroup) (d : HierData) : bool :=
  consistent_from ag 0 (hd_residues d).

(** A hierarchy index all of whose lookups fail. *)
Definition hv_failing : HierView :=
  {| hv_getResidue := fun _ => Raise IndexError;
     hv_getChain := fun _ => Raise ValueError;
     hv_getSegment := fun _ => Raise ValueError |}.

(** ** Sample stores *)

Module Sample.

(** Residue ALA 5 of five atoms, no chain identifiers, no insertion codes,
    one coordinate set, titled ["prot"]. *)
Definition ag_ala : AtomGroup :=
  {| _title := "prot"; _n_atoms := 5; _n_csets := 1; _ag_acsi := 0;
     _names := ["N"; "CA"; "C"; "O"; "CB"];
     _resnums := [5; 5; 5; 5; 5]%Z;
     _resnames := Some ["ALA"; "ALA"; "ALA"; "ALA"; "ALA"];
     _icodes := None; _chids := None; _segnames := None;
     _resindices := [0; 0; 0; 0; 0] |}.

Definition res_ala : Residue :=
  {| _indices := [0; 1; 2; 3; 4]; _acsi := None; _selstr := None |}.

(** Two residues: GLY 42 of chain A (atoms 0-2) and SER 7B of chain A
    (atoms 3-5, atom name ["CA"] twice), three coordinate sets. *)
Definition ag_two : AtomGroup :=
  {| _title := "two"; _n_atoms := 6; _n_csets := 3; _ag_acsi := 1;
     _names := ["N"; "CA"; "C"; "CA"; "OG"; "CA"];
     _resnums := [42; 42; 42; 7; 7; 7]%Z;
     _resnames := Some ["GLY"; "GLY"; "GLY"; "SER"; "SER"; "SER"];
     _icodes := Some [""; ""; ""; "B"; "B"; "B"];
     _chids := Some ["A"; "A"; "A"; "A"; "A"; "A"];
     _segnames := None;
     _resindices := [0; 0; 0; 1; 1; 1] |}.

Definition res_gly : Residue :=
  {| _indices := [0; 1; 2]; _acsi := None; _selstr := None |}.

Definition res_ser : Residue :=
  {| _indices := [3; 4; 5]; _acsi := Some 2; _selstr := None |}.

Definition chain_A : Chain := {| chain_getSelstr := "chain A" |}.

Definition hd_two : HierData :=
  {| hd_residues := [res_gly; res_ser];
     hd_chains := [("A", chain_A)];
     hd_segments := [] |}.

(** A chainless residue 7B of three atoms that carries the selection
    string ["protein"] it was built from. *)
Definition ag_frag : AtomGroup :=
  {| _title := "frag"; _n_atoms := 3; _n_csets := 0; _ag_acsi := 0;
     _names := ["N"; "CA"; "C"];
     _resnums := [7; 7; 7]%Z;
     _resnames := Some ["SER"; "SER"; "SER"];
     _icodes := Some ["B"; "B"; "B"];
     _chids := None; _segnames := None;
     _resindices := [0; 0; 0] |}.

Definition res_frag : Residue :=
  {| _indices := [0; 1; 2]; _acsi := None; _selstr := Some "protein" |}.

Definition res_plain : Residue :=
  {| _indices := [0; 1; 2]; _acsi := None; _selstr := None |}.

Definition hd_empty : HierData :=
  {| hd_residues := [res_plain]; hd_chains := []; hd_segments := [] |}.

(** Three residues of one atom each. *)
Definition ag_three : AtomGroup :=
  {| _title := "three"; _n_atoms := 3; _n_csets := 1; _ag_acsi := 0;
     _names := ["CA"; "CA"; "CA"];
     _resnums := [10; 11; 12]%Z;
     _resnames := None; _icodes := None; _chids := None; _segnames := None;
     _resindices := [0; 1; 2] |}.

Definition res_at (i : nat) : Residue :=
  {| _indices := [i]; _acsi := None; _selstr := None |}.

Definition hd_three : HierData :=
  {| hd_residues := [res_at 0; res_at 1; res_at 2];
     hd_chains := []; hd_segments := [] |}.

(** A view whose second index lies outside the store. *)
Definition res_outside : Residue :=
  {| _indices := [0; 9]; _acsi := None; _selstr := None |}.

(** A view over atoms 5 and 3 of [ag_two], held out of store order. *)
Definition res_unordered : Residue :=
  {| _indices := [5; 3]; _acsi := None; _selstr := None |}.

(** A view that holds no atom. *)
Definition res_none : Residue :=
  {| _indices := []; _acsi := None; _selstr := None |}.

(** SER 7B of [ag_two] seen through its first atom only, with a stored
    selection string. *)
Definition res_ser_head : Residue :=
  {| _indices := [3]; _acsi := None; _selstr := Some "name CA" |}.

(** SER 7B of [ag_two] with a stored selection string. *)
Definition res_ser_sel : Residue :=
  {| _indices := [3; 4; 5]; _acsi := Some 2; _selstr := Some "protein" |}.

(** A hierarchy index that answers like [hierview d] from ordinal [lo] on
    and raises below it. *)
Definition hv_from (lo : Z) (d : HierData) : HierView :=
  {| hv_getResidue := fun i =>
       if (i <? lo)%Z then Raise IndexError
       else hv_getResidue (hierview d) i;
     hv_getChain := hv_getChain (hierview d);
     hv_getSegment := hv_getSegment (hierview d) |}.

(** A hierarchy index that subscripts its residue list the way a list is
    subscripted: a negative ordinal counts from the end. *)
Definition hv_wrapping (d : HierData) : HierView :=
  {| hv_getResidue := fun i =>
       let n := Z.of_nat (length (hd_residues d)) in
       if (i <? 0)%Z then
         if (n + i <? 0)%Z then Raise IndexError
         else Ok (hd_residues d !! Z.to_nat (n + i))
       else hv_getResidue (hierview d) i;
     hv_getChain := hv_getChain (hierview d);
     hv_getSegment := hv_getSegment (hierview d) |}.

End Sample.

(** * Properties *)

Arguments str_Z : simpl never.
Arguments str_nat : simpl never.

(** ** Strings *)

Lemma append_assoc (a b c : string) : (a +:+ b) +:+ c = a +:+ (b +:+ c).
Proof.
  induction a as [| ch a IH].
  - reflexivity.
  - change (String ch ((a +:+ b) +:+ c) = String ch (a +:+ (b +:+ c))).
    now f_equal.
Qed.

Lemma append_empty_r (a : string) : a +:+ "" = a.
Proof.
  induction a as [| ch a IH].
  - reflexivity.
  - change (String ch (a +:+ "") = String ch a).
    now f_equal.
Qed.

(** ** Selection strings *)

Section Selstr.

Variables (ag : AtomGroup) (hv : HierView) (self : Residue).
Variables (ic : option string) (num : Z).
Hypothesis Hic : Residue.getIcode ag self = Ok ic.
Hypothesis Hnum : Residue.getResnum ag self = Ok num.

(** The branch taken when a chain object is found. *)
Lemma getSelstr_chain (ch : Chain) :
  Residue.getChain ag hv self = Ok (Some ch) ->
  Residue.getSelstr ag hv self =
    Ok ("resnum " +:+ str_Z num +:+ or_empty ic
        +:+ " and (" +:+ chain_getSelstr ch +:+ ")").
Proof.
  intros Hch. unfold Residue.getSelstr.
  rewrite Hic, Hch, Hnum. reflexivity.
Qed.

(** The branch taken without a chain and without a stored fragment. *)
Lemma getSelstr_bare :
  Residue.getChain ag hv self = Ok None ->
  truthy (_selstr self) = false ->
  Residue.getSelstr ag hv self = Ok ("resnum " +:+ str_Z num +:+ or_empty ic).
Proof.
  intros Hch Hsel. unfold Residue.getSelstr.
  rewrite Hic, Hch, Hsel, Hnum.
  transitivity (Ok ("resnum " +:+ str_Z num +:+ or_empty ic +:+ ""));
    [reflexivity | now rewrite append_empty_r].
Qed.

(** The branch taken without a chain and with a stored fragment: the
    template names field 1 twice, field 2 is never used. *)
Lemma getSelstr_fragment :
  Residue.getChain ag hv self = Ok None ->
  truthy (_selstr self) = true ->
  Residue.getSelstr ag hv self =
    Ok ("resnum " +:+ str_Z num +:+ or_empty ic
        +:+ " and (" +:+ or_empty ic +:+ ")").
Proof.
  intros Hch Hsel. unfold Residue.getSelstr.
  rewrite Hic, Hch, Hsel, Hnum. reflexivity.
Qed.

End Selstr.

(** C1: a chainless residue that carries a stored parent-selection fragment
    should select ["resnum {num}{icode} and ({fragment})"].  On the chainless
    residue 7B built from the selection ["protein"] the code answers
    ["resnum 7B and (B)"]: the insertion code stands inside the parentheses
    and the fragment is lost. *)
Theorem getSelstr_fragment_slip :
  Residue.getChain Sample.ag_frag (hierview Sample.hd_empty) Sample.res_frag
    = Ok None
  /\ Residue.getResnum Sample.ag_frag Sample.res_frag = Ok 7%Z
  /\ Residue.getIcode Sample.ag_frag Sample.res_frag = Ok (Some "B")
  /\ _selstr Sample.res_frag = Some "protein"
  /\ Residue.getSelstr Sample.ag_frag (hierview Sample.hd_empty) Sample.res_frag
       = Ok "resnum 7B and (B)"
  /\ Residue.getSelstr Sample.ag_frag (hierview Sample.hd_empty) Sample.res_frag
       <> Ok "resnum 7B and (protein)".
Proof.
  repeat split; try reflexivity.
  rewrite (getSelstr_fragment _ _ _ (Some "B") 7%Z) by reflexivity.
  discriminate.
Qed.

(** C7: with a chain object, [getSelstr()] is
    ["resnum {num}{icode} and ({chain.getSelstr()})"]; without a chain and
    without a stored fragment it is ["resnum {num}{icode}"]. *)
Theorem getSelstr_composition
    (ag : AtomGroup) (hv : HierView) (self : Residue)
    (ic : option string) (num : Z) :
  Residue.getIcode ag self = Ok ic ->
  Residue.getResnum ag self = Ok num ->
  (forall ch : Chain,
      Residue.getChain ag hv self = Ok (Some ch) ->
      Residue.getSelstr ag hv self =
        Ok ("resnum " +:+ str_Z num +:+ or_empty ic
            +:+ " and (" +:+ chain_getSelstr ch +:+ ")"))
  /\ (Residue.getChain ag hv self = Ok None ->
      truthy (_selstr self) = false ->
      Residue.getSelstr ag hv self =
        Ok ("resnum " +:+ str_Z num +:+ or_empty ic)).
Proof.
  intros Hic Hnum. split.
  - intros ch Hch. now apply getSelstr_chain.
  - intros Hch Hsel. now apply getSelstr_bare.
Qed.

(** Residue number 42 of chain A without insertion code, and the chainless
    residue 7B. *)
Lemma getSelstr_composition_witness :
  Residue.getSelstr Sample.ag_two (hierview Sample.hd_two) Sample.res_gly
    = Ok "resnum 42 and (chain A)"
  /\ Residue.getSelstr Sample.ag_frag (hierview Sample.hd_empty)
       Sample.res_plain
     = Ok "resnum 7B".
Proof.
  split.
  - apply (proj1 (getSelstr_composition Sample.ag_two (hierview Sample.hd_two)
                    Sample.res_gly (Some "") 42%Z eq_refl eq_refl)
             Sample.chain_A).
    reflexivity.
  - apply (proj2 (getSelstr_composition Sample.ag_frag
                    (hierview Sample.hd_empty) Sample.res_plain
                    (Some "B") 7%Z eq_refl eq_refl)).
    + reflexivity.
    + reflexivity.
Defined.

(** ** Display *)

Lemma format_chain_clause (c : string) :
  format " from Chain {0}" [c] = Ok (" from Chain " +:+ c).
Proof.
  transitivity (Ok (" from Chain " +:+ c +:+ "")).
  - reflexivity.
  - now rewrite append_empty_r.
Qed.

(** C8: the representation is the prefix
    ["<Residue: {name} {num}{icode}{ from Chain chid} from {title} ({n} atoms"]
    (the chain clause left out when there is no chain identifier) closed by
    [")>"] for one coordinate set, by ["; no coordinates)>"] for none, and by
    ["; active #{index} of {total} coordsets)>"] for more than one. *)
Theorem repr_variants
    (ag : AtomGroup) (self : Residue)
    (name : option string) (num : Z) (ic chid : option string) (acsi : nat) :
  Residue.getResname ag self = Ok name ->
  Residue.getResnum ag self = Ok num ->
  Residue.getIcode ag self = Ok ic ->
  Residue.getChid ag self = Ok chid ->
  getACSIndex ag self = Ok acsi ->
  let clause :=
    match chid with
    | Some c => " from Chain " +:+ c
    | None => ""
    end in
  let prefix :=
    "<Residue: " +:+ str_opt name +:+ " " +:+ str_Z num +:+ or_empty ic
    +:+ clause +:+ " from " +:+ getTitle ag
    +:+ " (" +:+ str_nat (len self) +:+ " atoms" in
  Residue.__repr__ ag self =
    Ok (prefix +:+
        match numCoordsets ag with
        | 0 => "; no coordinates)>"
        | 1 => ")>"
        | S (S _) =>
            "; active #" +:+ str_nat acsi +:+ " of "
            +:+ str_nat (numCoordsets ag) +:+ " coordsets)>"
        end).
Proof.
  intros Hname Hnum Hic Hchid Hacsi clause prefix.
  unfold Residue.__repr__. rewrite Hchid. cbn [bind].
  assert (Hclause :
    match chid with
    | Some _ => format " from Chain {0}" [str_opt chid]
    | None => Ok ""
    end = Ok clause).
  { subst clause. destruct chid as [c |]; [| reflexivity].
    cbn [str_opt]. apply format_chain_clause. }
  rewrite Hclause. cbn [bind]. clear Hclause.
  subst prefix. rewrite !append_assoc.
  destruct (numCoordsets ag) as [| [| n]] eqn:Hn; cbn [Nat.eqb Nat.ltb Nat.leb];
    rewrite Hname, Hnum, Hic; try rewrite Hacsi; reflexivity.
Qed.

(** Residue ALA 5: five atoms, no chain, no insertion code, one coordinate
    set, store title ["prot"]; and a residue of a store without coordinates. *)
Lemma repr_variants_witness :
  Residue.__repr__ Sample.ag_ala Sample.res_ala
    = Ok "<Residue: ALA 5 from prot (5 atoms)>"
  /\ Residue.__repr__ Sample.ag_frag Sample.res_frag
     = Ok "<Residue: SER 7B from frag (3 atoms; no coordinates)>"
  /\ Residue.__repr__ Sample.ag_two Sample.res_ser
     = Ok ("<Residue: SER 7B from Chain A from two "
           +:+ "(3 atoms; active #2 of 3 coordsets)>").
Proof.
  split; [| split].
  - apply (repr_variants Sample.ag_ala Sample.res_ala
             (Some "ALA") 5%Z None None 0); reflexivity.
  - apply (repr_variants Sample.ag_frag Sample.res_frag
             (Some "SER") 7%Z (Some "B") None 0); reflexivity.
  - apply (repr_variants Sample.ag_two Sample.res_ser
             (Some "SER") 7%Z (Some "B") (Some "A") 2); reflexivity.
Defined.

(** ** Navigation *)

Lemma getPrev_first (ag : AtomGroup) (hv : HierView) (self : Residue) :
  Residue.getResindex ag self = Ok 0 ->
  Residue.getPrev ag hv self = Ok None.
Proof.
  intros H. unfold Residue.getPrev. now rewrite H.
Qed.

Lemma getPrev_lookup
    (ag : AtomGroup) (hv : HierView) (self : Residue) (i : nat) :
  Residue.getResindex ag self = Ok (S i) ->
  Residue.getPrev ag hv self = hv_getResidue hv (Z.of_nat i).
Proof.
  intros H. unfold Residue.getPrev. rewrite H. cbn [bind].
  replace (Z.of_nat (S i) - 1)%Z with (Z.of_nat i) by lia.
  destruct (Z.ltb_spec (Z.of_nat i) 0); [lia | reflexivity].
Qed.

(** [getNext] forwards whatever the lookup answers: it has no bound of its
    own. *)
Lemma getNext_lookup
    (ag : AtomGroup) (hv : HierView) (self : Residue) (i : nat) :
  Residue.getResindex ag self = Ok i ->
  Residue.getNext ag hv self = hv_getResidue hv (Z.of_nat (S i)).
Proof.
  intros H. unfold Residue.getNext. rewrite H. cbn [bind].
  f_equal. lia.
Qed.

Lemma hierview_getResidue (d : HierData) (k : nat) :
  hv_getResidue (hierview d) (Z.of_nat k) = Ok (hd_residues d !! k).
Proof.
  cbn [hierview hv_getResidue].
  destruct (Z.ltb_spec (Z.of_nat k) 0); [lia |].
  now rewrite Nat2Z.id.
Qed.

Lemma consistent_from_lookup
    (ag : AtomGroup) (rs : list Residue) (k j : nat) (r : Residue) :
  consistent_from ag k rs = true ->
  rs !! j = Some r ->
  Residue.getResindex ag r = Ok (k + j).
Proof.
  revert k j. induction rs as [| r0 rs IH]; intros k j Hc Hj.
  - discriminate.
  - cbn [consistent_from] in Hc. apply andb_prop in Hc as [Hhd Htl].
    destruct j as [| j]; cbn in Hj.
    + injection Hj as ->.
      destruct (Residue.getResindex ag r) as [i | e]; [| discriminate].
      apply Nat.eqb_eq in Hhd. subst i. f_equal. lia.
    + rewrite (IH (S k) j Htl Hj). f_equal. lia.
Qed.

Lemma hier_consistent_lookup
    (ag : AtomGroup) (d : HierData) (j : nat) (r : Residue) :
  hier_consistent ag d = true ->
  hd_residues d !! j = Some r ->
  Residue.getResindex ag r = Ok j.
Proof.
  intros Hc Hj. apply (consistent_from_lookup ag _ 0 j r Hc Hj).
Qed.

(** The residue with no successor, when the lookup raises past the end. *)
Example getNext_unguarded :
  Residue.getNext Sample.ag_three hv_failing (Sample.res_at 2)
    = Raise IndexError.
Proof. reflexivity. Qed.

(** C6: [getPrev()] takes [getResindex() - 1]; when that is negative, which
    is at residue index 0, the answer is [None] whatever the hierarchy index
    is, so it is not asked; otherwise the answer is the hierarchy index's
    lookup at that ordinal. *)
Theorem getPrev_guard (ag : AtomGroup) (self : Residue) (i : nat) :
  Residue.getResindex ag self = Ok i ->
  ((Z.of_nat i - 1 < 0)%Z ->
     i = 0 /\ forall hv : HierView, Residue.getPrev ag hv self = Ok None)
  /\ ((0 <= Z.of_nat i - 1)%Z ->
      forall hv : HierView,
        Residue.getPrev ag hv self = hv_getResidue hv (Z.of_nat i - 1)%Z).
Proof.
  intros Hi. split.
  - intros Hneg. assert (i = 0) as -> by lia.
    split; [reflexivity |]. intros hv. now apply getPrev_first.
  - intros Hpos hv. destruct i as [| i]; [lia |].
    rewrite (getPrev_lookup ag hv self i Hi). f_equal. lia.
Qed.

(** At residue index 0 a hierarchy index whose lookups all raise is never
    reached; at residue index 2 the residue at ordinal 1 is returned. *)
Lemma getPrev_guard_witness :
  Residue.getPrev Sample.ag_three hv_failing (Sample.res_at 0) = Ok None
  /\ Residue.getPrev Sample.ag_three (hierview Sample.hd_three)
       (Sample.res_at 2)
     = Ok (Some (Sample.res_at 1)).
Proof.
  split.
  - apply (proj1 (getPrev_guard Sample.ag_three (Sample.res_at 0) 0 eq_refl)).
    simpl. lia.
  - rewrite (proj2 (getPrev_guard Sample.ag_three (Sample.res_at 2) 2 eq_refl)).
    + reflexivity.
    + simpl. lia.
Defined.

(** C2: at the last residue index known to the hierarchy index,
    [getNext()] is [None], not a failure. *)
Theorem getNext_last
    (ag : AtomGroup) (d : HierData) (self : Residue) (i : nat) :
  Residue.getResindex ag self = Ok i ->
  S i = length (hd_residues d) ->
  Residue.getNext ag (hierview d) self = Ok None.
Proof.
  intros Hi Hlast.
  rewrite (getNext_lookup ag _ self i Hi), hierview_getResidue.
  f_equal. apply lookup_ge_None. lia.
Qed.

Lemma getNext_last_witness :
  Residue.getNext Sample.ag_three (hierview Sample.hd_three) (Sample.res_at 2)
    = Ok None.
Proof.
  apply (getNext_last Sample.ag_three Sample.hd_three (Sample.res_at 2) 2).
  - reflexivity.
  - reflexivity.
Defined.

(** C9: for a residue strictly between the first and the last ordinal,
    [getNext()] then [getPrev()], and [getPrev()] then [getNext()], arrive at
    a residue with the same residue index; [getPrev()] is [None] at the first
    residue and [getNext()] is [None] at the last. *)
Theorem navigation_symmetry
    (ag : AtomGroup) (d : HierData) (self : Residue) (i : nat) :
  hier_consistent ag d = true ->
  Residue.getResindex ag self = Ok i ->
  (0 < i -> S i < length (hd_residues d) ->
     (exists nxt back : Residue,
         Residue.getNext ag (hierview d) self = Ok (Some nxt)
         /\ Residue.getPrev ag (hierview d) nxt = Ok (Some back)
         /\ Residue.getResindex ag back = Ok i)
     /\ (exists prv back : Residue,
         Residue.getPrev ag (hierview d) self = Ok (Some prv)
         /\ Residue.getNext ag (hierview d) prv = Ok (Some back)
         /\ Residue.getResindex ag back = Ok i))
  /\ (i = 0 -> Residue.getPrev ag (hierview d) self = Ok None)
  /\ (S i = length (hd_residues d) ->
      Residue.getNext ag (hierview d) self = Ok None).
Proof.
  intros Hc Hi. split; [| split].
  - intros Hlo Hhi.
    destruct i as [| p]; [lia |].
    destruct (lookup_lt_is_Some_2 (hd_residues d) (S (S p))) as [nxt Hnxt];
      [lia |].
    destruct (lookup_lt_is_Some_2 (hd_residues d) (S p)) as [mid Hmid];
      [lia |].
    destruct (lookup_lt_is_Some_2 (hd_residues d) p) as [prv Hprv]; [lia |].
    pose proof (hier_consistent_lookup ag d _ _ Hc Hnxt) as Inxt.
    pose proof (hier_consistent_lookup ag d _ _ Hc Hmid) as Imid.
    pose proof (hier_consistent_lookup ag d _ _ Hc Hprv) as Iprv.
    split.
    + exists nxt, mid. repeat split.
      * now rewrite (getNext_lookup ag _ self _ Hi), hierview_getResidue, Hnxt.
      * now rewrite (getPrev_lookup ag _ nxt _ Inxt), hierview_getResidue, Hmid.
      * exact Imid.
    + exists prv, mid. repeat split.
      * now rewrite (getPrev_lookup ag _ self _ Hi), hierview_getResidue, Hprv.
      * now rewrite (getNext_lookup ag _ prv _ Iprv), hierview_getResidue, Hmid.
      * exact Imid.
  - intros ->. now apply getPrev_first.
  - intros Hlast.
    rewrite (getNext_lookup ag _ self i Hi), hierview_getResidue.
    f_equal. apply lookup_ge_None. lia.
Qed.

Lemma navigation_symmetry_witness :
  (exists nxt back : Residue,
      Residue.getNext Sample.ag_three (hierview Sample.hd_three)
        (Sample.res_at 1) = Ok (Some nxt)
      /\ Residue.getPrev Sample.ag_three (hierview Sample.hd_three) nxt
         = Ok (Some back)
      /\ Residue.getResindex Sample.ag_three back = Ok 1)
  /\ (exists prv back : Residue,
      Residue.getPrev Sample.ag_three (hierview Sample.hd_three)
        (Sample.res_at 1) = Ok (Some prv)
      /\ Residue.getNext Sample.ag_three (hierview Sample.hd_three) prv
         = Ok (Some back)
      /\ Residue.getResindex Sample.ag_three back = Ok 1).
Proof.
  apply (proj1 (navigation_symmetry Sample.ag_three Sample.hd_three
                  (Sample.res_at 1) 1 eq_refl eq_refl)).
  - lia.
  - simpl. lia.
Defined.

(** ** Well-formed stores and residues *)

Lemma forallb_Forall_lt (n : nat) (l : list nat) :
  forallb (fun i => (i <? n)%nat) l = true -> Forall (fun i => i < n) l.
Proof.
  induction l as [| i l IH]; cbn [forallb]; intros H.
  - constructor.
  - apply andb_prop in H as [Hi Hl]. constructor.
    + now apply Nat.ltb_lt.
    + now apply IH.
Qed.

Lemma residue_ok_inv (ag : AtomGroup) (self : Residue) :
  residue_ok ag self = true ->
  (exists i rest, _indices self = i :: rest)
  /\ ascending (_indices self) = true
  /\ Forall (fun i => i < _n_atoms ag) (_indices self).
Proof.
  unfold residue_ok. destruct (_indices self) as [| i rest] eqn:E.
  - discriminate.
  - intros H. apply andb_prop in H as [Hasc Hin].
    split; [eauto |]. split; [exact Hasc |].
    now apply forallb_Forall_lt.
Qed.

Lemma store_ok_inv (ag : AtomGroup) :
  store_ok ag = true ->
  length (_names ag) = _n_atoms ag
  /\ length (_resnums ag) = _n_atoms ag
  /\ length (_resindices ag) = _n_atoms ag.
Proof.
  unfold store_ok. intros H.
  repeat (apply andb_prop in H as [H ?]).
  repeat split; now apply Nat.eqb_eq.
Qed.

Lemma ascending_tail (i : nat) (l : list nat) :
  ascending (i :: l) = true -> ascending l = true.
Proof.
  destruct l as [| j l]; [reflexivity |].
  cbn [ascending]. intros H. now apply andb_prop in H as [_ H].
Qed.

Lemma ascending_head_lt (i : nat) (l : list nat) (k j : nat) :
  ascending (i :: l) = true -> l !! k = Some j -> i < j.
Proof.
  revert i k. induction l as [| x l IH]; intros i k Hasc Hk.
  - discriminate.
  - pose proof Hasc as Hasc'. cbn [ascending] in Hasc.
    apply andb_prop in Hasc as [Hix Hl].
    apply Nat.ltb_lt in Hix.
    destruct k as [| k]; cbn in Hk.
    + injection Hk as ->. exact Hix.
    + pose proof (IH x k Hl Hk). lia.
Qed.

(** In store order a later position holds a larger atom index. *)
Lemma ascending_lookup_le (l : list nat) (a b x y : nat) :
  ascending l = true ->
  l !! a = Some x -> l !! b = Some y -> a <= b -> x <= y.
Proof.
  revert a b. induction l as [| i l IH]; intros a b Hasc Ha Hb Hab.
  - discriminate.
  - destruct a as [| a], b as [| b]; cbn in Ha, Hb.
    + injection Ha as ->. injection Hb as ->. lia.
    + injection Ha as ->.
      pose proof (ascending_head_lt _ _ _ _ Hasc Hb). lia.
    + lia.
    + apply (IH a b);
        [now apply ascending_tail in Hasc | assumption | assumption | lia].
Qed.

(** ** Broadcast writes *)

Lemma length_foldr_insert {A : Type} (v : A) (indices : list nat)
    (data : list A) :
  length (foldr (fun i col => <[i := v]> col) data indices) = length data.
Proof.
  induction indices as [| i indices IH]; cbn [foldr].
  - reflexivity.
  - now rewrite length_insert.
Qed.

Lemma lookup_foldr_insert_in {A : Type} (v : A) (indices : list nat)
    (data : list A) (i : nat) :
  i ∈ indices -> i < length data ->
  foldr (fun i col => <[i := v]> col) data indices !! i = Some v.
Proof.
  intros Hin Hlt. induction indices as [| j indices IH]; cbn [foldr].
  - now apply elem_of_nil in Hin.
  - destruct (decide (j = i)) as [-> | Hne].
    + apply list_lookup_insert_eq. now rewrite length_foldr_insert.
    + rewrite list_lookup_insert_ne by exact Hne.
      apply IH.
      apply elem_of_cons in Hin as [-> | Hin]; [congruence | exact Hin].
Qed.

Lemma lookup_foldr_insert_out {A : Type} (v : A) (indices : list nat)
    (data : list A) (j : nat) :
  j ∉ indices ->
  foldr (fun i col => <[i := v]> col) data indices !! j = data !! j.
Proof.
  intros Hout. induction indices as [| i indices IH]; cbn [foldr].
  - reflexivity.
  - apply not_elem_of_cons in Hout as [Hne Hout].
    rewrite list_lookup_insert_ne by congruence.
    now apply IH.
Qed.

Lemma put_at_ok {A : Type} (data : list A) (indices : list nat) (v : A) :
  Forall (fun i => i < length data) indices ->
  put_at data indices v
    = Ok (foldr (fun i col => <[i := v]> col) data indices).
Proof.
  intros Hall. unfold put_at.
  replace (forallb (fun i => (i <? length data)%nat) indices) with true;
    [reflexivity |].
  symmetry. induction Hall as [| i l Hi Hl IH]; cbn [forallb].
  - reflexivity.
  - rewrite IH. now apply Nat.ltb_lt in Hi as ->.
Qed.

(** C3: after [setResnum(v)] the residue reads residue number [v], and the
    residue-number column holds [v] at every atom index the residue holds
    (and is unchanged at every other atom). *)
Theorem setResnum_broadcast (ag : AtomGroup) (self : Residue) (v : Z) :
  store_ok ag = true ->
  residue_ok ag self = true ->
  exists ag' : AtomGroup,
    Residue.setResnum ag self v = Ok ag'
    /\ Residue.getResnum ag' self = Ok v
    /\ (forall i : nat, i ∈ _indices self -> _resnums ag' !! i = Some v)
    /\ (forall j : nat, j ∉ _indices self ->
          _resnums ag' !! j = _resnums ag !! j).
Proof.
  intros Hst Hres.
  destruct (store_ok_inv ag Hst) as (_ & Hlen & _).
  destruct (residue_ok_inv ag self Hres) as ((i0 & rest & Hidx) & _ & Hin).
  rewrite <- Hlen in Hin.
  eexists. split.
  { unfold Residue.setResnum, setResnums.
    rewrite (put_at_ok _ _ v Hin). reflexivity. }
  assert (Hall : forall i : nat, i ∈ _indices self ->
            foldr (fun i col => <[i := v]> col) (_resnums ag) (_indices self)
              !! i = Some v).
  { intros i Hi. apply lookup_foldr_insert_in; [exact Hi |].
    rewrite Forall_forall in Hin. now apply Hin. }
  split; [| split].
  - unfold Residue.getResnum, Residue.index0, item.
    rewrite Hidx. cbn [lookup list_lookup bind _setResnums _resnums].
    rewrite <- Hidx, Hall; [reflexivity |].
    rewrite Hidx. apply elem_of_cons. now left.
  - exact Hall.
  - intros j Hj. cbn [_setResnums _resnums].
    now apply lookup_foldr_insert_out.
Qed.

(** Renumbering SER 7B (atoms 3, 4, 5) to 99. *)
Lemma setResnum_broadcast_witness :
  exists ag' : AtomGroup,
    Residue.setResnum Sample.ag_two Sample.res_ser 99%Z = Ok ag'
    /\ Residue.getResnum ag' Sample.res_ser = Ok 99%Z
    /\ (forall i : nat, i ∈ _indices Sample.res_ser ->
          _resnums ag' !! i = Some 99%Z)
    /\ (forall j : nat, j ∉ _indices Sample.res_ser ->
          _resnums ag' !! j = _resnums Sample.ag_two !! j).
Proof.
  apply (setResnum_broadcast Sample.ag_two Sample.res_ser 99%Z).
  - reflexivity.
  - reflexivity.
Defined.

(** ** Atom lookup by name *)

Lemma take_at_ok {A : Type} (data : list A) (indices : list nat) :
  Forall (fun i => i < length data) indices ->
  exists xs : list A,
    take_at data indices = Ok xs
    /\ Forall2 (fun i x => data !! i = Some x) indices xs.
Proof.
  induction 1 as [| i indices Hi _ (xs & Hxs & Hall)].
  - exists []. split; [reflexivity | constructor].
  - destruct (lookup_lt_is_Some_2 data i Hi) as [x Hx].
    exists (x :: xs). split.
    + cbn [take_at]. unfold item. rewrite Hx. cbn [bind].
      now rewrite Hxs.
    + now constructor.
Qed.

Lemma nonzero_from_nil (k : nat) (mask : list bool) :
  Residue.nonzero_from k mask = [] ->
  forall q : nat, mask !! q <> Some true.
Proof.
  revert k. induction mask as [| b mask IH]; intros k Hnz q.
  - discriminate.
  - cbn [Residue.nonzero_from] in Hnz. destruct b; [discriminate |].
    destruct q as [| q]; [discriminate |].
    now apply (IH (S k)).
Qed.

Lemma nonzero_from_head (k : nat) (mask : list bool) (p : nat)
    (rest : list nat) :
  Residue.nonzero_from k mask = p :: rest ->
  exists q : nat,
    p = k + q
    /\ mask !! q = Some true
    /\ forall q' : nat, q' < q -> mask !! q' <> Some true.
Proof.
  revert k. induction mask as [| b mask IH]; intros k Hnz.
  - discriminate.
  - cbn [Residue.nonzero_from] in Hnz. destruct b.
    + injection Hnz as <- _. exists 0. repeat split; [lia |].
      intros q' Hq'. lia.
    + destruct (IH (S k) Hnz) as (q & -> & Hq & Hmin).
      exists (S q). repeat split; [lia | exact Hq |].
      intros [| q'] Hq'; [discriminate |].
      apply Hmin. lia.
Qed.

(** The mask built by [getNames() == name] is true exactly at the positions
    of the held atoms named [s]. *)
Lemma mask_lookup (names : list string) (indices : list nat)
    (xs : list string) (s : string) (q i : nat) :
  Forall2 (fun i x => names !! i = Some x) indices xs ->
  indices !! q = Some i ->
  (((fun n => bool_decide (n = s)) <$> xs) !! q = Some true
   <-> names !! i = Some s).
Proof.
  intros Hall Hq.
  destruct (Forall2_lookup_l _ _ _ _ _ Hall Hq) as (x & Hx & Hname).
  rewrite list_lookup_fmap, Hx, Hname. cbn.
  split.
  - intros [= Hb]. apply bool_decide_eq_true in Hb. now subst.
  - intros [= ->]. f_equal. now apply bool_decide_eq_true.
Qed.

(** C4: [getAtom(name)] for a string answers the atom at the smallest held
    atom index whose name is [name], with the residue's active coordinate set
    index, and [None] when no held atom has that name. *)
Theorem getAtom_lowest (ag : AtomGroup) (self : Residue) (s : string) :
  store_ok ag = true ->
  residue_ok ag self = true ->
  match Residue.getAtom ag self (PyStr s) with
  | Ok (Some a) =>
      getACSIndex ag self = Ok (atom_acsi a)
      /\ atom_index a ∈ _indices self
      /\ _names ag !! atom_index a = Some s
      /\ forall j : nat,
           j ∈ _indices self -> _names ag !! j = Some s -> atom_index a <= j
  | Ok None =>
      forall j : nat, j ∈ _indices self -> _names ag !! j <> Some s
  | Raise _ => False
  end.
Proof.
  intros Hst Hres.
  destruct (store_ok_inv ag Hst) as (Hlen & _ & _).
  destruct (residue_ok_inv ag self Hres) as (_ & Hasc & Hin).
  rewrite <- Hlen in Hin.
  destruct (take_at_ok _ _ Hin) as (xs & Hxs & Hall).
  unfold Residue.getAtom, getACSIndex, getNames. cbn [bind].
  rewrite Hxs. cbn [bind]. unfold Residue.nonzero.
  destruct (Residue.nonzero_from 0 _) as [| p rest] eqn:Hnz.
  - intros j Hj Hname.
    apply list_elem_of_lookup in Hj as [q Hq].
    apply (nonzero_from_nil _ _ Hnz q).
    now apply (mask_lookup _ _ _ s q j Hall Hq).
  - destruct (nonzero_from_head _ _ _ _ Hnz) as (q & -> & Hq & Hmin).
    cbn [Nat.add].
    assert (is_Some (_indices self !! q)) as [i Hi].
    { apply lookup_lt_is_Some_2.
      rewrite (Forall2_length _ _ _ Hall).
      apply lookup_lt_Some in Hq. now rewrite length_fmap in Hq. }
    unfold item. rewrite Hi. cbn [bind atom_index atom_acsi].
    repeat split.
    + apply list_elem_of_lookup. now exists q.
    + now apply (mask_lookup _ _ _ s q i Hall Hi).
    + intros j Hj Hname.
      apply list_elem_of_lookup in Hj as [q' Hq'].
      apply (ascending_lookup_le _ q q' i j Hasc Hi Hq').
      destruct (Nat.le_gt_cases q q') as [Hle | Hgt]; [exact Hle |].
      exfalso. apply (Hmin q' Hgt).
      now apply (mask_lookup _ _ _ s q' j Hall Hq').
Qed.

(** In SER 7B the atoms 3 and 5 are both named ["CA"]: atom 3 is returned,
    with the residue's own coordinate set index 2. *)
Lemma getAtom_lowest_witness :
  match Residue.getAtom Sample.ag_two Sample.res_ser (PyStr "CA") with
  | Ok (Some a) =>
      getACSIndex Sample.ag_two Sample.res_ser = Ok (atom_acsi a)
      /\ atom_index a ∈ _indices Sample.res_ser
      /\ _names Sample.ag_two !! atom_index a = Some "CA"
      /\ forall j : nat,
           j ∈ _indices Sample.res_ser ->
           _names Sample.ag_two !! j = Some "CA" -> atom_index a <= j
  | Ok None =>
      forall j : nat,
        j ∈ _indices Sample.res_ser -> _names Sample.ag_two !! j <> Some "CA"
  | Raise _ => False
  end.
Proof.
  apply (getAtom_lowest Sample.ag_two Sample.res_ser "CA").
  - reflexivity.
  - reflexivity.
Defined.

Example getAtom_duplicate_name :
  Residue.getAtom Sample.ag_two Sample.res_ser (PyStr "CA")
    = Ok (Some {| atom_index := 3; atom_acsi := 2 |}).
Proof. reflexivity. Qed.

(** The order of the held indices matters: a view that holds its atoms out of
    store order answers the first match in its own order. *)
Example getAtom_storage_order :
  residue_ok Sample.ag_two Sample.res_unordered = false
  /\ Residue.getAtom Sample.ag_two Sample.res_unordered (PyStr "CA")
     = Ok (Some {| atom_index := 5; atom_acsi := 1 |}).
Proof. split; reflexivity. Qed.

Example getAtom_unknown_name :
  Residue.getAtom Sample.ag_two Sample.res_ser (PyStr "XX") = Ok None.
Proof. reflexivity. Qed.

(** C5: indexing a residue, [R[s]], is [R.getAtom(s)] on every argument. *)
Theorem getitem_is_getAtom (ag : AtomGroup) (self : Residue) (key : pyval) :
  Residue.__getitem__ ag self key = Residue.getAtom ag self key.
Proof. reflexivity. Qed.

(** C10: for an argument that is not a string, [getAtom] and indexing answer
    [None] over every store and every view: the atom names are not read, and
    nothing is raised. *)
Theorem getAtom_not_str (ag : AtomGroup) (self : Residue) (key : pyval) :
  isinstance_str key = false ->
  Residue.getAtom ag self key = Ok None
  /\ Residue.__getitem__ ag self key = Ok None.
Proof.
  intros Hkey. unfold Residue.__getitem__.
  destruct key; try discriminate; split; reflexivity.
Qed.

(** A view with an atom index outside the store: reading its atom names
    raises, asking it for a non-string key does not. *)
Lemma getAtom_not_str_witness :
  getNames Sample.ag_two Sample.res_outside = Raise IndexError
  /\ Residue.getAtom Sample.ag_two Sample.res_outside (PyStr "CA")
     = Raise IndexError
  /\ Residue.getAtom Sample.ag_two Sample.res_outside (PyInt 3) = Ok None
  /\ Residue.__getitem__ Sample.ag_two Sample.res_outside (PyInt 3) = Ok None.
Proof.
  split; [reflexivity |]. split; [reflexivity |].
  apply (getAtom_not_str Sample.ag_two Sample.res_outside (PyInt 3)).
  reflexivity.
Defined.

(** * Further properties of the residue code *)

(** ** Which ordinals navigation asks for *)

(** [getPrev()] never hands a negative ordinal to the hierarchy index: two
    hierarchy indices that agree on the ordinals from 0 on give the same
    answer, whatever either does below 0. *)
Theorem getPrev_nonnegative_only
    (ag : AtomGroup) (hv hv' : HierView) (self : Residue) :
  (forall k : Z, (0 <= k)%Z -> hv_getResidue hv k = hv_getResidue hv' k) ->
  Residue.getPrev ag hv self = Residue.getPrev ag hv' self.
Proof.
  intros Hagree. unfold Residue.getPrev.
  destruct (Residue.getResindex ag self) as [i | e]; [| reflexivity].
  cbn [bind].
  destruct (Z.ltb_spec (Z.of_nat i - 1) 0) as [Hneg | Hpos].
  - reflexivity.
  - now apply Hagree.
Qed.

(** At the first residue a hierarchy index that counts negative ordinals from
    the end is not asked for ordinal -1, which it would answer with the last
    residue. *)
Lemma getPrev_nonnegative_only_witness :
  Residue.getPrev Sample.ag_three (hierview Sample.hd_three) (Sample.res_at 0)
    = Residue.getPrev Sample.ag_three (Sample.hv_wrapping Sample.hd_three)
        (Sample.res_at 0)
  /\ hv_getResidue (Sample.hv_wrapping Sample.hd_three) (-1)%Z
     = Ok (Some (Sample.res_at 2)).
Proof.
  split.
  - apply getPrev_nonnegative_only.
    intros k Hk. cbn [Sample.hv_wrapping hv_getResidue].
    destruct (Z.ltb_spec k 0); [lia | reflexivity].
  - reflexivity.
Defined.

(** [getNext()] only asks the hierarchy index for ordinals from 1 on: the
    residue at ordinal 0 is never the answer of a lookup made by [getNext()]. *)
Theorem getNext_positive_only
    (ag : AtomGroup) (hv hv' : HierView) (self : Residue) :
  (forall k : Z, (1 <= k)%Z -> hv_getResidue hv k = hv_getResidue hv' k) ->
  Residue.getNext ag hv self = Residue.getNext ag hv' self.
Proof.
  intros Hagree. unfold Residue.getNext.
  destruct (Residue.getResindex ag self) as [i | e]; [| reflexivity].
  cbn [bind]. apply Hagree. lia.
Qed.

Lemma getNext_positive_only_witness :
  Residue.getNext Sample.ag_three (hierview Sample.hd_three) (Sample.res_at 0)
    = Residue.getNext Sample.ag_three (Sample.hv_from 1 Sample.hd_three)
        (Sample.res_at 0).
Proof.
  apply getNext_positive_only.
  intros k Hk. cbn [Sample.hv_from hv_getResidue].
  destruct (Z.ltb_spec k 1); [lia | reflexivity].
Defined.

(** ** Views without atoms, stores without columns *)

Lemma index0_empty (self : Residue) :
  _indices self = [] -> Residue.index0 self = Raise IndexError.
Proof.
  intros H. unfold Residue.index0, item. now rewrite H.
Qed.

Lemma first_of_empty {A : Type} (col : option (list A)) (self : Residue) :
  _indices self = [] ->
  Residue.first_of col self = Ok None
  \/ Residue.first_of col self = Raise IndexError.
Proof.
  intros H. unfold Residue.first_of. destruct col as [data |].
  - right. now rewrite (index0_empty self H).
  - now left.
Qed.

Lemma getResnum_empty (ag : AtomGroup) (self : Residue) :
  _indices self = [] -> Residue.getResnum ag self = Raise IndexError.
Proof.
  intros H. unfold Residue.getResnum. now rewrite (index0_empty self H).
Qed.

Lemma getResindex_empty (ag : AtomGroup) (self : Residue) :
  _indices self = [] -> Residue.getResindex ag self = Raise IndexError.
Proof.
  intros H. unfold Residue.getResindex. now rewrite (index0_empty self H).
Qed.

(** On a view that holds no atom, reading the residue number or the residue
    index, printing the residue, composing its selection string and stepping
    to a neighbour all raise [IndexError], over every store and every
    hierarchy index. *)
Theorem empty_view_raises
    (ag : AtomGroup) (hv : HierView) (self : Residue) :
  _indices self = [] ->
  Residue.getResnum ag self = Raise IndexError
  /\ Residue.getResindex ag self = Raise IndexError
  /\ Residue.__str__ ag self = Raise IndexError
  /\ Residue.__repr__ ag self = Raise IndexError
  /\ Residue.getSelstr ag hv self = Raise IndexError
  /\ Residue.getPrev ag hv self = Raise IndexError
  /\ Residue.getNext ag hv self = Raise IndexError.
Proof.
  intros H.
  pose proof (getResnum_empty ag self H) as Hnum.
  pose proof (getResindex_empty ag self H) as Hidx.
  repeat split; try assumption.
  - unfold Residue.__str__, Residue.getResname.
    destruct (first_of_empty (_resnames ag) self H) as [-> | ->];
      [| reflexivity].
    cbn [bind]. now rewrite Hnum.
  - unfold Residue.__repr__, Residue.getChid, Residue.getResname.
    destruct (first_of_empty (_chids ag) self H) as [-> | ->];
      [| reflexivity].
    cbn [bind].
    destruct (first_of_empty (_resnames ag) self H) as [-> | ->];
      cbn [bind]; rewrite ?Hnum;
      destruct (numCoordsets ag =? 1)%nat; try reflexivity;
      destruct (1 <? numCoordsets ag)%nat; reflexivity.
  - unfold Residue.getSelstr, Residue.getIcode, Residue.getChain,
      Residue.getChid.
    destruct (first_of_empty (_icodes ag) self H) as [-> | ->];
      [| reflexivity].
    cbn [bind].
    destruct (first_of_empty (_chids ag) self H) as [-> | ->];
      [| reflexivity].
    cbn [bind]. rewrite Hnum.
    destruct (truthy (_selstr self)); reflexivity.
  - unfold Residue.getPrev. now rewrite Hidx.
  - unfold Residue.getNext. now rewrite Hidx.
Qed.

Lemma empty_view_raises_witness :
  Residue.getResnum Sample.ag_two Sample.res_none = Raise IndexError
  /\ Residue.getResindex Sample.ag_two Sample.res_none = Raise IndexError
  /\ Residue.__str__ Sample.ag_two Sample.res_none = Raise IndexError
  /\ Residue.__repr__ Sample.ag_two Sample.res_none = Raise IndexError
  /\ Residue.getSelstr Sample.ag_two (hierview Sample.hd_two) Sample.res_none
     = Raise IndexError
  /\ Residue.getPrev Sample.ag_two (hierview Sample.hd_two) Sample.res_none
     = Raise IndexError
  /\ Residue.getNext Sample.ag_two (hierview Sample.hd_two) Sample.res_none
     = Raise IndexError.
Proof.
  apply (empty_view_raises Sample.ag_two (hierview Sample.hd_two)
           Sample.res_none).
  reflexivity.
Defined.

(** A store without chain identifiers: no residue has a chain, and the
    selection string is composed without asking the hierarchy index; a store
    without segment names: no residue has a segment.  Both hold for every
    view, also one without atoms. *)
Theorem absent_column_no_lookup (ag : AtomGroup) (self : Residue) :
  (_chids ag = None ->
     Residue.getChid ag self = Ok None
     /\ (forall hv : HierView, Residue.getChain ag hv self = Ok None)
     /\ (forall hv hv' : HierView,
           Residue.getSelstr ag hv self = Residue.getSelstr ag hv' self))
  /\ (_segnames ag = None ->
      Residue.getSegname ag self = Ok None
      /\ (forall hv : HierView, Residue.getSegment ag hv self = Ok None)).
Proof.
  split.
  - intros Hcol.
    assert (Hchid : Residue.getChid ag self = Ok None).
    { unfold Residue.getChid. now rewrite Hcol. }
    assert (Hchain : forall hv, Residue.getChain ag hv self = Ok None).
    { intros hv. unfold Residue.getChain. now rewrite Hchid. }
    split; [exact Hchid |]. split; [exact Hchain |].
    intros hv hv'. unfold Residue.getSelstr.
    now rewrite (Hchain hv), (Hchain hv').
  - intros Hcol.
    assert (Hseg : Residue.getSegname ag self = Ok None).
    { unfold Residue.getSegname. now rewrite Hcol. }
    split; [exact Hseg |].
    intros hv. unfold Residue.getSegment. now rewrite Hseg.
Qed.

(** Over the store of ALA 5, which has neither column, a hierarchy index
    whose lookups all raise is as good as any other. *)
Lemma absent_column_no_lookup_witness :
  Residue.getChain Sample.ag_ala hv_failing Sample.res_ala = Ok None
  /\ Residue.getSelstr Sample.ag_ala hv_failing Sample.res_ala
     = Residue.getSelstr Sample.ag_ala (hierview Sample.hd_empty)
         Sample.res_ala
  /\ Residue.getSegment Sample.ag_ala hv_failing Sample.res_ala = Ok None.
Proof.
  destruct (absent_column_no_lookup Sample.ag_ala Sample.res_ala)
    as [Hchain Hseg].
  destruct (Hchain eq_refl) as (_ & Hc & Hs).
  destruct (Hseg eq_refl) as (_ & Hg).
  split; [apply Hc |]. split; [apply Hs | apply Hg].
Defined.

(** ** The first held atom decides the residue's attributes *)

Section FirstAtom.

Variables (ag : AtomGroup) (a b : Residue).
Hypothesis Hhead : head (_indices a) = head (_indices b).

Lemma index0_head : Residue.index0 a = Residue.index0 b.
Proof.
  unfold Residue.index0, item. rewrite <- !head_lookup. now rewrite Hhead.
Qed.

Lemma first_of_head {A : Type} (col : option (list A)) :
  Residue.first_of col a = Residue.first_of col b.
Proof.
  unfold Residue.first_of. now rewrite index0_head.
Qed.

Lemma getResnum_head : Residue.getResnum ag a = Residue.getResnum ag b.
Proof.
  unfold Residue.getResnum. now rewrite index0_head.
Qed.

Lemma getResindex_head : Residue.getResindex ag a = Residue.getResindex ag b.
Proof.
  unfold Residue.getResindex. now rewrite index0_head.
Qed.

Lemma getChain_head (hv : HierView) :
  Residue.getChain ag hv a = Residue.getChain ag hv b.
Proof.
  unfold Residue.getChain, Residue.getChid. now rewrite first_of_head.
Qed.

End FirstAtom.

(** Two views whose index sequences start with the same atom report the same
    residue number, name, insertion code, residue index, chain identifier and
    segment name, have the same chain, segment and neighbours, and print the
    same short form: all of these are read at the first held atom only. *)
Theorem first_atom_decides
    (ag : AtomGroup) (hv : HierView) (a b : Residue) :
  head (_indices a) = head (_indices b) ->
  Residue.getResnum ag a = Residue.getResnum ag b
  /\ Residue.getResname ag a = Residue.getResname ag b
  /\ Residue.getIcode ag a = Residue.getIcode ag b
  /\ Residue.getResindex ag a = Residue.getResindex ag b
  /\ Residue.getChid ag a = Residue.getChid ag b
  /\ Residue.getSegname ag a = Residue.getSegname ag b
  /\ Residue.getChain ag hv a = Residue.getChain ag hv b
  /\ Residue.getSegment ag hv a = Residue.getSegment ag hv b
  /\ Residue.__str__ ag a = Residue.__str__ ag b
  /\ Residue.getPrev ag hv a = Residue.getPrev ag hv b
  /\ Residue.getNext ag hv a = Residue.getNext ag hv b.
Proof.
  intros Hhead.
  pose proof (getResnum_head ag a b Hhead) as Hnum.
  pose proof (getResindex_head ag a b Hhead) as Hidx.
  pose proof (fun A col => @first_of_head a b Hhead A col) as Hcol.
  repeat split.
  - exact Hnum.
  - apply Hcol.
  - apply Hcol.
  - exact Hidx.
  - apply Hcol.
  - apply Hcol.
  - now apply getChain_head.
  - unfold Residue.getSegment, Residue.getSegname. now rewrite Hcol.
  - unfold Residue.__str__, Residue.getResname, Residue.getIcode.
    now rewrite !Hcol, Hnum.
  - unfold Residue.getPrev. now rewrite Hidx.
  - unfold Residue.getNext. now rewrite Hidx.
Qed.

(** SER 7B held through atoms 3, 4, 5 and through atom 3 alone. *)
Lemma first_atom_decides_witness :
  Residue.getResnum Sample.ag_two Sample.res_ser
    = Residue.getResnum Sample.ag_two Sample.res_ser_head
  /\ Residue.__str__ Sample.ag_two Sample.res_ser
     = Residue.__str__ Sample.ag_two Sample.res_ser_head
  /\ Residue.getPrev Sample.ag_two (hierview Sample.hd_two) Sample.res_ser
     = Residue.getPrev Sample.ag_two (hierview Sample.hd_two)
         Sample.res_ser_head.
Proof.
  destruct (first_atom_decides Sample.ag_two (hierview Sample.hd_two)
              Sample.res_ser Sample.res_ser_head eq_refl)
    as (Hnum & _ & _ & _ & _ & _ & _ & _ & Hstr & Hprev & _).
  split; [exact Hnum |]. split; [exact Hstr | exact Hprev].
Defined.

(** ** The shape of selection strings *)



(** When a chain is found the stored selection string of the view plays no
    part: two views that start with the same atom have the same selection
    string, whatever each of them stores. *)
Theorem getSelstr_chain_ignores_stored
    (ag : AtomGroup) (hv : HierView) (a b : Residue) (ch : Chain) :
  head (_indices a) = head (_indices b) ->
  Residue.getChain ag hv a = Ok (Some ch) ->
  Residue.getSelstr ag hv a = Residue.getSelstr ag hv b.
Proof.
  intros Hhead Hch.
  pose proof Hch as Hch'. rewrite (getChain_head ag a b Hhead) in Hch'.
  unfold Residue.getSelstr, Residue.getIcode.
  rewrite (first_of_head a b Hhead), Hch, Hch'.
  now rewrite (getResnum_head ag a b Hhead).
Qed.

Lemma getSelstr_chain_ignores_stored_witness :
  Residue.getSelstr Sample.ag_two (hierview Sample.hd_two) Sample.res_ser
    = Residue.getSelstr Sample.ag_two (hierview Sample.hd_two)
        Sample.res_ser_sel.
Proof.
  apply (getSelstr_chain_ignores_stored Sample.ag_two
           (hierview Sample.hd_two) Sample.res_ser Sample.res_ser_sel
           Sample.chain_A).
  - reflexivity.
  - reflexivity.
Defined.

(** ** Well-formed residues never fail *)






(** ** Atom lookup over any view *)

Lemma take_at_Ok {A : Type} (data : list A) (indices : list nat)
    (xs : list A) :
  take_at data indices = Ok xs ->
  Forall2 (fun i x => data !! i = Some x) indices xs.
Proof.
  revert xs. induction indices as [| i indices IH]; intros xs H.
  - injection H as <-. constructor.
  - cbn [take_at] in H. unfold item in H.
    destruct (data !! i) as [x |] eqn:Hx; [| discriminate].
    cbn [bind] in H.
    destruct (take_at data indices) as [ys | e]; [| discriminate].
    injection H as <-. constructor; [exact Hx | now apply IH].
Qed.

Lemma take_at_Raise {A : Type} (data : list A) (indices : list nat)
    (e : exn) :
  take_at data indices = Raise e ->
  e = IndexError /\ exists i : nat, i ∈ indices /\ length data <= i.
Proof.
  induction indices as [| i indices IH]; intros H.
  - discriminate.
  - cbn [take_at] in H. unfold item in H.
    destruct (data !! i) as [x |] eqn:Hx.
    + cbn [bind] in H.
      destruct (take_at data indices) as [ys | e']; [discriminate |].
      injection H as ->.
      destruct (IH eq_refl) as (-> & j & Hj & Hlen).
      split; [reflexivity |]. exists j. split; [| exact Hlen].
      apply elem_of_cons. now right.
    + injection H as <-. split; [reflexivity |].
      exists i. split; [apply elem_of_cons; now left |].
      now apply lookup_ge_None.
Qed.

(** [getAtom(name)] for a string, over any view and any store: the answer is
    the atom at the first position of the view's index sequence whose atom is
    named [name]; it is [None] when every held atom has another name; and the
    only failure is [IndexError], raised exactly when the view holds an index
    outside the atom-name column. *)
Theorem getAtom_first_match (ag : AtomGroup) (self : Residue) (s : string) :
  match Residue.getAtom ag self (PyStr s) with
  | Ok (Some a) =>
      exists q : nat,
        _indices self !! q = Some (atom_index a)
        /\ _names ag !! atom_index a = Some s
        /\ forall q' j : nat,
             q' < q -> _indices self !! q' = Some j ->
             _names ag !! j <> Some s
  | Ok None =>
      forall j : nat,
        j ∈ _indices self ->
        exists x : string, _names ag !! j = Some x /\ x <> s
  | Raise e =>
      e = IndexError
      /\ exists i : nat, i ∈ _indices self /\ length (_names ag) <= i
  end.
Proof.
  unfold Residue.getAtom, getACSIndex, getNames. cbn [bind].
  destruct (take_at (_names ag) (_indices self)) as [xs | e] eqn:Hxs.
  - pose proof (take_at_Ok _ _ _ Hxs) as Hall.
    cbn [bind]. unfold Residue.nonzero.
    destruct (Residue.nonzero_from 0 _) as [| p rest] eqn:Hnz.
    + intros j Hj.
      apply list_elem_of_lookup in Hj as [q Hq].
      destruct (Forall2_lookup_l _ _ _ _ _ Hall Hq) as (x & Hx & Hname).
      exists x. split; [exact Hname |]. intros ->.
      apply (nonzero_from_nil _ _ Hnz q).
      now apply (mask_lookup _ _ _ s q j Hall Hq).
    + destruct (nonzero_from_head _ _ _ _ Hnz) as (q & -> & Hq & Hmin).
      cbn [Nat.add].
      assert (is_Some (_indices self !! q)) as [i Hi].
      { apply lookup_lt_is_Some_2.
        rewrite (Forall2_length _ _ _ Hall).
        apply lookup_lt_Some in Hq. now rewrite length_fmap in Hq. }
      unfold item. rewrite Hi. cbn [bind atom_index].
      exists q. split; [exact Hi |]. split.
      * now apply (mask_lookup _ _ _ s q i Hall Hi).
      * intros q' j Hlt Hq' Hname.
        apply (Hmin q' Hlt).
        now apply (mask_lookup _ _ _ s q' j Hall Hq').
  - cbn [bind]. now apply take_at_Raise in Hxs.
Qed.

(** ** The two printed forms *)

(** The representation contains the short form: it is ["<Residue: "], the
    text of [str(residue)], the chain clause, the store title and the atom
    count, and a closing that depends on the coordinate sets only. *)
Theorem repr_embeds_str
    (ag : AtomGroup) (self : Residue) (s : string) (chid : option string) :
  Residue.__str__ ag self = Ok s ->
  Residue.getChid ag self = Ok chid ->
  exists closing : string,
    Residue.__repr__ ag self
      = Ok ("<Residue: " +:+ s
            +:+ match chid with
                | Some c => " from Chain " +:+ c
                | None => ""
                end
            +:+ " from " +:+ getTitle ag
            +:+ " (" +:+ str_nat (len self) +:+ " atoms" +:+ closing)
    /\ (closing = ")>"
        \/ closing = "; no coordinates)>"
        \/ exists k : nat,
             getACSIndex ag self = Ok k
             /\ closing = "; active #" +:+ str_nat k +:+ " of "
                          +:+ str_nat (numCoordsets ag) +:+ " coordsets)>").
Proof.
  intros Hstr Hchid.
  unfold Residue.__str__ in Hstr.
  destruct (Residue.getResname ag self) as [name | e] eqn:Hname;
    [| discriminate].
  destruct (Residue.getResnum ag self) as [num | e] eqn:Hnum;
    [| discriminate].
  destruct (Residue.getIcode ag self) as [ic | e] eqn:Hic;
    [| discriminate].
  cbn [bind] in Hstr.
  assert (Hs : s = str_opt name +:+ " " +:+ str_Z num +:+ or_empty ic).
  { assert (Hf : format "{0} {1}{2}" [str_opt name; str_Z num; or_empty ic]
                 = Ok (str_opt name +:+ " " +:+ str_Z num
                       +:+ or_empty ic +:+ "")) by reflexivity.
    rewrite Hf, append_empty_r in Hstr. now injection Hstr as <-. }
  subst s. unfold Residue.__repr__. rewrite Hchid. cbn [bind].
  assert (Hclause :
    match chid with
    | Some _ => format " from Chain {0}" [str_opt chid]
    | None => Ok ""
    end = Ok match chid with
             | Some c => " from Chain " +:+ c
             | None => ""
             end).
  { destruct chid as [c |]; [| reflexivity].
    cbn [str_opt]. apply format_chain_clause. }
  rewrite Hclause. cbn [bind]. clear Hclause.
  rewrite Hname, Hnum, Hic.
  set (clause := match chid with
                 | Some c => " from Chain " +:+ c
                 | None => ""
                 end).
  destruct (numCoordsets ag) as [| [| n]] eqn:Hn;
    cbn [Nat.eqb Nat.ltb Nat.leb bind].
  - exists "; no coordinates)>". split; [| now right; left].
    rewrite !append_assoc. reflexivity.
  - exists ")>". split; [| now left].
    rewrite !append_assoc. reflexivity.
  - exists ("; active #" +:+ str_nat (default (_ag_acsi ag) (_acsi self))
            +:+ " of " +:+ str_nat (S (S n)) +:+ " coordsets)>").
    split.
    + rewrite !append_assoc. reflexivity.
    + right; right. now exists (default (_ag_acsi ag) (_acsi self)).
Qed.

Lemma repr_embeds_str_witness :
  exists closing : string,
    Residue.__repr__ Sample.ag_two Sample.res_ser
      = Ok ("<Residue: " +:+ "SER 7B"
            +:+ " from Chain " +:+ "A"
            +:+ " from " +:+ getTitle Sample.ag_two
            +:+ " (" +:+ str_nat (len Sample.res_ser) +:+ " atoms"
            +:+ closing)
    /\ (closing = ")>"
        \/ closing = "; no coordinates)>"
        \/ exists k : nat,
             getACSIndex Sample.ag_two Sample.res_ser = Ok k
             /\ closing = "; active #" +:+ str_nat k +:+ " of "
                          +:+ str_nat (numCoordsets Sample.ag_two)
                          +:+ " coordsets)>").
Proof.
  apply (repr_embeds_str Sample.ag_two Sample.res_ser "SER 7B" (Some "A")).
  - reflexivity.
  - reflexivity.
Defined.
